(** * PyMullvad: a shallow embedding of [pymullvad/mullvad.py]

    The module wraps the [mullvad] command-line client.  Every method of
    the class [Mullvad] is static and keeps no state of its own; all
    state lives in the host (the processes it spawns and the clock).

    Modelling conventions.
    - Python [str] and [bytes] are both [string]; a text is represented
      by its UTF-8 encoding, so [bytes.decode("utf-8")] is a validity
      check that leaves the representation unchanged.  Whitespace and
      digits are the ASCII ones recognised by [str.strip] and [int];
      characters outside ASCII are neither.
    - Python [int] is [Z].
    - The host is an oracle answering every spawn request as a function
      of the history of events so far; methods are computations in a
      monad that reads the history and writes the events they cause.
    - [subprocess.run(..., shell=True)] is the POSIX case: the command
      line is handed to [/bin/sh -c]. *)

From Stdlib Require Import String Ascii List ZArith NArith Bool Lia.
From Stdlib Require DecimalString DecimalPos.
Import ListNotations.
Open Scope string_scope.
Open Scope Z_scope.

(** ** Python text primitives *)

Module PyStr.

Definition LF : ascii := ascii_of_nat 10.

(** Characters for which [str.isspace] holds, below 128:
    TAB, LF, VT, FF, CR, FS, GS, RS, US and SPACE. *)
Definition is_space (c : ascii) : bool :=
  let n := N_of_ascii c in
  ((9 <=? n) && (n <=? 13) || (28 <=? n) && (n <=? 32))%N.

Definition is_empty (s : string) : bool :=
  match s with EmptyString => true | String _ _ => false end.

Fixpoint lstrip (s : string) : string :=
  match s with
  | EmptyString => EmptyString
  | String c r => if is_space c then lstrip r else s
  end.

Fixpoint rstrip (s : string) : string :=
  match s with
  | EmptyString => EmptyString
  | String c r =>
      let r' := rstrip r in
      if is_space c && is_empty r' then EmptyString else String c r'
  end.

(** [s.strip()] *)
Definition strip (s : string) : string := rstrip (lstrip s).

Fixpoint starts_with (p s : string) : bool :=
  match p, s with
  | EmptyString, _ => true
  | String _ _, EmptyString => false
  | String a p', String b s' => Ascii.eqb a b && starts_with p' s'
  end.

(** [p in s] for two strings: [p] occurs in [s] as a contiguous run. *)
Fixpoint contains (p s : string) : bool :=
  starts_with p s ||
  match s with
  | EmptyString => false
  | String _ s' => contains p s'
  end.

(** [s.split(sep)] for a one-character separator: never empty. *)
Fixpoint split (sep : ascii) (s : string) : list string :=
  match s with
  | EmptyString => [EmptyString]
  | String c r =>
      if Ascii.eqb c sep then EmptyString :: split sep r
      else match split sep r with
           | [] => [String c EmptyString]
           | f :: fs => String c f :: fs
           end
  end.

Definition digit_value (c : ascii) : option Z :=
  let n := N_of_ascii c in
  if ((48 <=? n) && (n <=? 57))%N then Some (Z.of_N n - 48) else None.


(** The digit part of a decimal literal accepted by [int]: digits with
    single underscores between them.  [prev] tells whether the
    character just read was a digit. *)
Fixpoint parse_digits (s : string) (acc : Z) (prev : bool) : option Z :=
  match s with
  | EmptyString => if prev then Some acc else None
  | String c r =>
      match digit_value c with
      | Some d => parse_digits r (10 * acc + d) true
      | None =>
          if Ascii.eqb c "_" && prev then parse_digits r acc false
          else None
      end
  end.

(** [int(s)] in base ten; [None] stands for [ValueError].  The
    interpreter's configurable cap on the number of digits is not part
    of the model. *)
Definition parse_int (s : string) : option Z :=
  match strip s with
  | String "-" r => option_map Z.opp (parse_digits r 0 false)
  | String "+" r => parse_digits r 0 false
  | t => parse_digits t 0 false
  end.


Fixpoint all_chars (f : ascii -> bool) (s : string) : bool :=
  match s with
  | EmptyString => true
  | String c r => f c && all_chars f r
  end.

(** [Occurs p s]: the specification of [p in s]. *)
Definition Occurs (p s : string) : Prop :=
  exists a b, s = a ++ p ++ b.

(** Strict UTF-8 well-formedness (Unicode table 3-7), the condition
    under which [bytes.decode("utf-8")] succeeds. *)
Definition cont (lo hi : N) (c : ascii) : bool :=
  ((lo <=? N_of_ascii c) && (N_of_ascii c <=? hi))%N.

Fixpoint utf8_valid (b : string) : bool :=
  match b with
  | EmptyString => true
  | String c0 r0 =>
      let n := N_of_ascii c0 in
      if (n <=? 127)%N then utf8_valid r0
      else
        match r0 with
        | EmptyString => false
        | String c1 r1 =>
            if ((194 <=? n) && (n <=? 223))%N then
              cont 128 191 c1 && utf8_valid r1
            else
              match r1 with
              | EmptyString => false
              | String c2 r2 =>
                  if ((224 <=? n) && (n <=? 239))%N then
                    cont (if (n =? 224)%N then 160 else 128)
                         (if (n =? 237)%N then 159 else 191) c1
                    && cont 128 191 c2 && utf8_valid r2
                  else
                    match r2 with
                    | EmptyString => false
                    | String c3 r3 =>
                        ((240 <=? n) && (n <=? 244))%N
                        && cont (if (n =? 240)%N then 144 else 128)
                                (if (n =? 244)%N then 143 else 191) c1
                        && cont 128 191 c2 && cont 128 191 c3
                        && utf8_valid r3
                    end
              end
        end
  end.



End PyStr.

(** ** The host: processes, clock and console *)

Module Host.

(** The exceptions that can leave the methods modelled here.
    [FileNotFoundError] and [PermissionError], raised when a program
    cannot be launched, are subclasses of [OSError]. *)
Inductive PyExc : Type :=
| OSError
| CalledProcessError
| UnicodeDecodeError
| IndexError
| ValueError.

(** What a process that ran to completion leaves behind.  When the
    child was started with [stderr=subprocess.STDOUT], [stdout] is the
    merged stream. *)
Record Completed : Type := {
  returncode : Z;
  stdout : string;
  stderr : string
}.

Inductive Spawned : Type :=
| SpawnFailed
| Exited (p : Completed).

Inductive Event : Type :=
| EvSpawn (argv : list string) (r : Spawned)
| EvSleep (ms : N)
| EvPrint (line : string).

Definition exits (code : Z) (out err : string) : Spawned :=
  Exited {| returncode := code; stdout := out; stderr := err |}.

Definition History : Type := list Event.

(** A host answers a spawn request from the history so far, and fixes
    how a pipe opened in text mode is decoded (locale codec followed by
    universal-newline translation); [None] is a decoding error. *)
Record t : Type := {
  spawn : History -> list string -> Spawned;
  text_mode : string -> option string
}.

(** Outcome of a computation: a value, a raised exception, or the
    exhaustion of the fuel that bounds a loop of the model. *)
Inductive result (A : Type) : Type :=
| Ok (a : A)
| Raise (e : PyExc)
| OutOfFuel.

Arguments Ok {A} a.
Arguments Raise {A} e.
Arguments OutOfFuel {A}.

(** A computation reads the history and returns its outcome together
    with the events it caused, oldest first. *)
Definition M (A : Type) : Type := History -> result A * list Event.

Definition ret {A} (a : A) : M A := fun _ => (Ok a, []).

Definition raise {A} (e : PyExc) : M A := fun _ => (Raise e, []).

Definition bind {A B} (m : M A) (f : A -> M B) : M B :=
  fun h =>
    match m h with
    | (Ok a, e1) => let (r, e2) := f a (h ++ e1)%list in (r, (e1 ++ e2)%list)
    | (Raise e, e1) => (Raise e, e1)
    | (OutOfFuel, e1) => (OutOfFuel, e1)
    end.

(** [try: m  except e: ...]: [None] when [m] raised [e]. *)
Definition try_except {A} (m : M A) (caught : PyExc -> bool) : M (option A) :=
  fun h =>
    match m h with
    | (Ok a, e1) => (Ok (Some a), e1)
    | (Raise e, e1) => if caught e then (Ok None, e1) else (Raise e, e1)
    | (OutOfFuel, e1) => (OutOfFuel, e1)
    end.

Definition of_option {A} (e : PyExc) (o : option A) : M A :=
  match o with
  | Some a => ret a
  | None => raise e
  end.

Definition argv_eqb (a b : list string) : bool :=
  if list_eq_dec string_dec a b then true else false.

(** The argument vectors spawned, in order. *)
Fixpoint spawns (evs : list Event) : list (list string) :=
  match evs with
  | [] => []
  | EvSpawn argv _ :: r => argv :: spawns r
  | _ :: r => spawns r
  end.

(** Total time slept, in milliseconds. *)
Fixpoint slept (evs : list Event) : N :=
  match evs with
  | [] => 0
  | EvSleep ms :: r => ms + slept r
  | _ :: r => slept r
  end.

End Host.

Import Host.

Declare Scope py_scope.
Delimit Scope py_scope with py.
Notation "x <- m ;; k" := (bind m (fun x => k))
  (at level 61, m at next level, right associativity) : py_scope.
Notation "m ;;; k" := (bind m (fun _ => k))
  (at level 61, right associativity) : py_scope.
Open Scope py_scope.

(** ** The class [Mullvad] *)

Module Mullvad.

(** The value returned by [get_account_number]: an [int], or [False]. *)
Inductive PyVal : Type :=
| PyInt (n : Z)
| PyBool (b : bool).

(** Truth value of an argument that is [None] or a [str]. *)
Definition truthy (o : option string) : bool :=
  match o with
  | None => false
  | Some s => negb (PyStr.is_empty s)
  end.

(** How an f-string renders such an argument. *)
Definition fmt (o : option string) : string :=
  match o with
  | None => "None"
  | Some s => s
  end.

(** [subprocess] with [shell=True] on POSIX. *)
Definition sh (command : string) : list string := ["/bin/sh"; "-c"; command].

Definition status_argv : list string := sh "mullvad status".

(** ["Connected" in text] *)
Definition is_connected (text : string) : bool :=
  PyStr.contains "Connected" text.

Section Methods.

Variable host : Host.t.

(** [subprocess.run(command, shell=True, stdout=PIPE, stderr=PIPE)]:
    no [check=True], so the exit status is not looked at. *)
Definition subprocess_run (command : string) : M Completed :=
  fun h =>
    let r := spawn host h (sh command) in
    (match r with
     | SpawnFailed => Raise OSError
     | Exited p => Ok p
     end, [EvSpawn (sh command) r]).

(** [subprocess.check_output(argv, stderr=STDOUT, universal_newlines=True)]:
    the output is read and decoded, then a non-zero status raises. *)
Definition check_output (argv : list string) : M string :=
  fun h =>
    let r := spawn host h argv in
    (match r with
     | SpawnFailed => Raise OSError
     | Exited p =>
         match text_mode host (stdout p) with
         | None => Raise UnicodeDecodeError
         | Some text =>
             if returncode p =? 0 then Ok text else Raise CalledProcessError
         end
     end, [EvSpawn argv r]).

(** [b.decode("utf-8")] *)
Definition decode (b : string) : M string :=
  if PyStr.utf8_valid b then ret b else raise UnicodeDecodeError.

Definition sleep (ms : N) : M unit := fun _ => (Ok tt, [EvSleep ms]).

Definition print (line : string) : M unit := fun _ => (Ok tt, [EvPrint line]).

(** [l[i]] *)
Definition index {A} (l : list A) (i : nat) : M A :=
  of_option IndexError (nth_error l i).

(** [int(s)] *)
Definition int (s : string) : M Z :=
  of_option ValueError (PyStr.parse_int s).

Definition run_command (command : string) : M (string * string) :=
  process <- subprocess_run command ;;
  out <- decode (stdout process) ;;
  err <- decode (stderr process) ;;
  ret (out, err).

(** Lines 24-26: the text of [mullvad account get] to the number. *)
Definition account_number_of (output : string) : M PyVal :=
  let result := PyStr.strip output in
  result <- index (PyStr.split PyStr.LF result) 0 ;;
  field <- index (PyStr.split ":" result) 1 ;;
  n <- int (PyStr.strip field) ;;
  ret (PyInt n).

Definition get_account_number : M PyVal :=
  output <- try_except
              (check_output ["mullvad"; "account"; "get"])
              (fun e => match e with CalledProcessError => true | _ => false end) ;;
  match output with
  | None =>
      print "Mullvad VPN CLI tool not available." ;;;
      ret (PyBool false)
  | Some output => account_number_of output
  end.

Definition set_relay_location (country : string) (city server : option string)
  : M (string * string) :=
  if truthy server then
    run_command ("mullvad relay set location " ++ country ++ " " ++ fmt city
                   ++ " " ++ fmt server)
  else if truthy city then
    run_command ("mullvad relay set location " ++ country ++ " " ++ fmt city)
  else
    run_command ("mullvad relay set location " ++ country).

Definition disconnect : M (string * string) :=
  run_command "mullvad disconnect".


Definition get_status (verbose : bool) : M string :=
  if verbose then
    r <- run_command "mullvad status -v" ;; ret (PyStr.strip (fst r))
  else
    r <- run_command "mullvad status" ;; ret (PyStr.strip (fst r)).

(** Lines 132-138 of [connect]: disconnect if connected, select the
    relay, ask for the connection. *)
Definition connect_begin (country : string) (city server : option string)
  : M unit :=
  status <- get_status false ;;
  (if is_connected status then disconnect ;;; ret tt else ret tt) ;;;
  set_relay_location country city server ;;;
  run_command "mullvad connect" ;;;
  ret tt.

(** Lines 141-149 of [connect]: the [while] loop, entered with the
    current value of [wait_iter].  [fuel] bounds the iterations of the
    model; [wait_loop_fuel] shows that 22 is never exhausted. *)
Fixpoint wait_loop (fuel : nat) (wait_iter : Z) : M bool :=
  match fuel with
  | O => fun _ => (OutOfFuel, [])
  | S fuel' =>
      status <- get_status false ;;
      if is_connected status then ret true
      else
        sleep 500 ;;;
        if wait_iter >? 20 then ret false
        else wait_loop fuel' (wait_iter + 1)
  end.

Definition connect (country : string) (city server : option string) : M bool :=
  connect_begin country city server ;;;
  wait_loop 22 0.





(** The history before poll number [k] (from 0) of a loop entered at
    history [t], when no earlier poll ended the loop. *)
Fixpoint poll_history (t : History) (k : nat) : History :=
  match k with
  | O => t
  | S k' =>
      let t' := poll_history t k' in
      (t' ++ [EvSpawn status_argv (spawn host t' status_argv); EvSleep 500])%list
  end.

(** The status text poll number [k] reads. *)
Definition poll_text (t : History) (k : nat) : result string :=
  fst (get_status false (poll_history t k)).

Definition poll_not_connected (t : History) (k : nat) : Prop :=
  exists s, poll_text t k = Ok s /\ is_connected s = false.

Definition poll_connected (t : History) (k : nat) : Prop :=
  exists s, poll_text t k = Ok s /\ is_connected s = true.

(** The history at which the loop of [connect] is entered. *)
Definition loop_entry (country : string) (city server : option string)
  (t : History) : History :=
  (t ++ snd (connect_begin country city server t))%list.

End Methods.


End Mullvad.

Import Mullvad.

(** ** Hosts used to exercise the model *)

Module Hosts.

Definition line (s : string) : string := s ++ String PyStr.LF EmptyString.

(** The number of [mullvad status] requests in a history. *)
Fixpoint status_queries (t : History) : nat :=
  match t with
  | [] => 0
  | EvSpawn argv _ :: r =>
      if argv_eqb argv status_argv then S (status_queries r)
      else status_queries r
  | _ :: r => status_queries r
  end.

(** A client that reports [Connecting] to the first [n] status requests
    and [Connected] from then on; every other command exits with [code]
    and prints [out] and [err]. *)
Definition connecting_until (n : nat) (code : Z) (out err : string) : Host.t :=
  {| spawn := fun t argv =>
       if argv_eqb argv status_argv then
         exits 0 (line (if (status_queries t <? n)%nat then "Connecting"
                        else "Connected"))
               EmptyString
       else exits code out err;
     text_mode := Some |}.

(** A machine with a shell but no [mullvad] program: the shell reports
    the missing command with status 127, launching it directly fails. *)
Definition no_mullvad : Host.t :=
  {| spawn := fun _ argv =>
       match argv with
       | [shell; flag; _] =>
           if String.eqb shell "/bin/sh" && String.eqb flag "-c" then
             exits 127 EmptyString (line "/bin/sh: 1: mullvad: not found")
           else SpawnFailed
       | _ => SpawnFailed
       end;
     text_mode := Some |}.

(** A machine on which nothing can be launched, not even the shell. *)
Definition nothing_runs : Host.t :=
  {| spawn := fun _ _ => SpawnFailed; text_mode := Some |}.

(** A client whose every command exits with [code] after printing [out]. *)
Definition always (code : Z) (out : string) : Host.t :=
  {| spawn := fun _ _ => exits code out EmptyString; text_mode := Some |}.

End Hosts.

(** ** Statements used to compare the specification with the code *)

Module Stated.

(** What [run_command] makes of the host's answer to its request. *)
Definition decoded (r : Spawned) : result (string * string) :=
  match r with
  | SpawnFailed => Raise OSError
  | Exited p =>
      if PyStr.utf8_valid (stdout p) then
        if PyStr.utf8_valid (stderr p) then Ok (stdout p, stderr p)
        else Raise UnicodeDecodeError
      else Raise UnicodeDecodeError
  end.

(** What [get_status] makes of the host's answer to its request. *)
Definition status_of (r : Spawned) : result string :=
  match decoded r with
  | Ok oe => Ok (PyStr.strip (fst oe))
  | Raise e => Raise e
  | OutOfFuel => OutOfFuel
  end.

(** The program [get_account_number] launches, without a shell. *)
Definition account_argv : list string := ["mullvad"; "account"; "get"].

Definition status_command (verbose : bool) : string :=
  if verbose then "mullvad status -v" else "mullvad status".



Definition no_space (s : string) : Prop :=
  PyStr.all_chars (fun x => negb (PyStr.is_space x)) s = true.


(** An argument is absent when it is [None] or the empty string: the
    two values the tests of [set_relay_location] take for false. *)
Definition absent (o : option string) : Prop :=
  o = None \/ o = Some EmptyString.

(** The command line [set_relay_location] runs when only the country
    is passed on. *)
Definition country_only (country : string) : string :=
  "mullvad relay set location " ++ country.

(** The relay selection of lines 95-102 as a single command line. *)
Definition location_command (country : string) (city server : option string)
  : string :=
  if truthy server then
    "mullvad relay set location " ++ country ++ " " ++ fmt city ++ " "
      ++ fmt server
  else if truthy city then
    "mullvad relay set location " ++ country ++ " " ++ fmt city
  else "mullvad relay set location " ++ country.

(** The argument vectors [connect] spawns before it starts polling,
    given whether the first status read as connected. *)
Definition preamble (was_connected : bool) (country : string)
  (city server : option string) : list (list string) :=
  (status_argv
     :: (if was_connected then [sh "mullvad disconnect"] else [])
     ++ [sh (location_command country city server); sh "mullvad connect"])%list.

Definition is_prefix {A} (l1 l2 : list A) : Prop :=
  exists l3, l2 = (l1 ++ l3)%list.


(** A server named without a city falls back to the country alone. *)
Definition server_without_city_degrades : Prop :=
  forall h country s t,
    s <> EmptyString ->
    spawns (snd (set_relay_location h country None (Some s) t)) =
    [sh (country_only country)].

(** A value was returned, as opposed to an exception raised. *)
Definition returns {A} (r : result A) : Prop :=
  exists a, r = Ok a.

(** A missing [mullvad] program always surfaces as an exception of
    [run_command]. *)
Definition missing_binary_raises : Prop :=
  forall h command t,
    (forall t' args, spawn h t' ("mullvad" :: args) = SpawnFailed) ->
    ~ returns (fst (run_command h command t)).

(** The line [get_account_number] prints when the command failed. *)
Definition unavailable : string := "Mullvad VPN CLI tool not available.".




End Stated.

Import Stated.

(** ** Facts about the text primitives *)

Module PyStrFacts.

Import PyStr.

Lemma starts_with_spec p s :
  starts_with p s = true <-> exists b, s = p ++ b.
Proof.
  revert s; induction p as [|a p IH]; intros s.
  - destruct s; simpl; split; eauto.
  - destruct s as [|b s]; simpl.
    + split; [discriminate | intros [x H]; discriminate].
    + rewrite andb_true_iff, Ascii.eqb_eq, IH. split.
      * intros [-> [x ->]]. exists x; reflexivity.
      * intros [x H]. injection H as -> ->. split; eauto.
Qed.

Lemma contains_spec p s : contains p s = true <-> Occurs p s.
Proof.
  unfold Occurs. induction s as [|c s IH]; simpl.
  - rewrite orb_false_r, starts_with_spec. split.
    + intros [b H]. exists EmptyString, b. exact H.
    + intros [a [b H]]. destruct a; simpl in H; [eauto | discriminate].
  - rewrite orb_true_iff, starts_with_spec, IH. split.
    + intros [[b H] | [a [b H]]].
      * exists EmptyString, b. exact H.
      * exists (String c a), b. simpl. now rewrite H.
    + intros [a [b H]]. destruct a as [|c' a]; simpl in H.
      * left; eauto.
      * right. injection H as _ H. eauto.
Qed.

Lemma append_assoc (a b c : string) : (a ++ b) ++ c = a ++ (b ++ c).
Proof. induction a; simpl; congruence. Qed.

Lemma append_empty_r (a : string) : a ++ EmptyString = a.
Proof. induction a; simpl; congruence. Qed.

Lemma is_empty_true s : is_empty s = true -> s = EmptyString.
Proof. destruct s; [reflexivity | discriminate]. Qed.

Lemma is_empty_app_cons x c y : is_empty (x ++ String c y) = false.
Proof. destruct x; reflexivity. Qed.


(** *** Stripping *)

Lemma lstrip_decompose s :
  exists w, s = w ++ lstrip s /\ all_chars is_space w = true.
Proof.
  induction s as [|c s [w [E W]]]; simpl.
  - exists EmptyString; split; reflexivity.
  - destruct (is_space c) eqn:Hc.
    + exists (String c w). simpl. rewrite Hc, W. split; [congruence | reflexivity].
    + exists EmptyString; split; reflexivity.
Qed.

Lemma rstrip_decompose s :
  exists w, s = rstrip s ++ w /\ all_chars is_space w = true.
Proof.
  induction s as [|c s [w [E W]]]; simpl.
  - exists EmptyString; split; reflexivity.
  - destruct (is_space c) eqn:Hc; simpl.
    + destruct (is_empty (rstrip s)) eqn:He.
      * apply is_empty_true in He. rewrite He in E. simpl in E.
        exists (String c w). simpl. rewrite Hc, W. split; [congruence | reflexivity].
      * exists w. simpl. split; congruence.
    + exists w. simpl. split; congruence.
Qed.

Lemma rstrip_app x y :
  rstrip (x ++ y) =
  if is_empty (rstrip y) then rstrip x else x ++ rstrip y.
Proof.
  induction x as [|d x IH]; simpl.
  - destruct (is_empty (rstrip y)) eqn:He; [now apply is_empty_true | reflexivity].
  - rewrite IH. destruct (is_empty (rstrip y)) eqn:He; [reflexivity|].
    destruct (rstrip y) as [|c r]; [discriminate|].
    rewrite is_empty_app_cons, andb_false_r. reflexivity.
Qed.

Lemma rstrip_no_space s : no_space s -> rstrip s = s.
Proof.
  unfold no_space. induction s as [|c s IH]; simpl; [reflexivity|].
  rewrite andb_true_iff, negb_true_iff. intros [Hc Hs].
  rewrite Hc, IH by assumption. reflexivity.
Qed.



(** *** Occurrences survive stripping *)

Lemma occurs_lstrip p s :
  p <> EmptyString -> no_space p -> Occurs p s -> Occurs p (lstrip s).
Proof.
  intros Hp Hn. induction s as [|c s IH]; simpl; [tauto|].
  intros [a [b H]]. destruct (is_space c) eqn:Hc; [|exists a, b; exact H].
  apply IH. destruct a as [|c' a]; simpl in H.
  - destruct p as [|q p]; [congruence|]. simpl in H. injection H as -> _.
    unfold no_space in Hn. simpl in Hn. rewrite Hc in Hn. discriminate.
  - injection H as _ H. exists a, b. exact H.
Qed.

Lemma occurs_rstrip p s :
  p <> EmptyString -> no_space p -> Occurs p s -> Occurs p (rstrip s).
Proof.
  intros Hp Hn. induction s as [|c s IH]; [tauto|].
  intros [a [b H]]. destruct a as [|c' a]; simpl in H.
  - rewrite H, rstrip_app.
    destruct (is_empty (rstrip b)).
    + rewrite rstrip_no_space by assumption.
      exists EmptyString, EmptyString. simpl. now rewrite append_empty_r.
    + exists EmptyString, (rstrip b). reflexivity.
  - injection H as _ H.
    destruct (IH (ex_intro _ a (ex_intro _ b H))) as [a' [b' H']].
    simpl. rewrite H'.
    assert (E : is_empty (a' ++ p ++ b') = false).
    { destruct p as [|q p]; [congruence|]. apply is_empty_app_cons. }
    rewrite E, andb_false_r. exists (String c a'), b'. reflexivity.
Qed.

Lemma occurs_in_strip p s : Occurs p (strip s) -> Occurs p s.
Proof.
  unfold strip. intros [a [b H]].
  destruct (lstrip_decompose s) as [w1 [E1 _]].
  destruct (rstrip_decompose (lstrip s)) as [w2 [E2 _]].
  exists (w1 ++ a), (b ++ w2).
  rewrite E1 at 1. rewrite E2 at 1. rewrite H.
  now rewrite !append_assoc.
Qed.

Lemma occurs_strip p s :
  p <> EmptyString -> no_space p -> (Occurs p (strip s) <-> Occurs p s).
Proof.
  intros Hp Hn. split; [apply occurs_in_strip|].
  intros H. unfold strip. now apply occurs_rstrip, occurs_lstrip.
Qed.

End PyStrFacts.

(** ** Facts about splitting and number parsing *)

Module ParseFacts.

Import PyStr PyStrFacts.









(** *** [split] *)



(** *** [int] on a run of digits *)



(** *** The first line of an account report *)




End ParseFacts.

(** ** Facts about the methods *)

Module MullvadFacts.

Import PyStr PyStrFacts ParseFacts.

Lemma spawns_app a b : spawns (a ++ b) = (spawns a ++ spawns b)%list.
Proof.
  induction a as [|e a IH]; simpl; [reflexivity|].
  destruct e; simpl; now rewrite IH.
Qed.

Lemma slept_app a b : slept (a ++ b) = (slept a + slept b)%N.
Proof.
  induction a as [|e a IH]; simpl; [reflexivity|].
  destruct e; simpl; rewrite IH; lia.
Qed.



Section WithHost.

Variable h : Host.t.

Lemma run_command_spec command t :
  run_command h command t =
  (decoded (spawn h t (sh command)),
   [EvSpawn (sh command) (spawn h t (sh command))]).
Proof.
  unfold run_command, bind, subprocess_run, decode, decoded.
  destruct (spawn h t (sh command)) as [|p]; [reflexivity|].
  destruct (utf8_valid (stdout p)), (utf8_valid (stderr p)); reflexivity.
Qed.

Lemma get_status_spec verbose t :
  get_status h verbose t =
  (status_of (spawn h t (sh (status_command verbose))),
   [EvSpawn (sh (status_command verbose))
            (spawn h t (sh (status_command verbose)))]).
Proof.
  unfold get_status, status_of, status_command.
  destruct verbose; unfold bind; rewrite run_command_spec;
    match goal with |- context [decoded ?r] => destruct (decoded r) end;
    reflexivity.
Qed.

Lemma set_relay_location_spec country city server t :
  set_relay_location h country city server t =
  run_command h (location_command country city server) t.
Proof.
  unfold set_relay_location, location_command.
  destruct (truthy server), (truthy city); reflexivity.
Qed.

Lemma poll_text_spec t k :
  poll_text h t k = status_of (spawn h (poll_history h t k) status_argv).
Proof. unfold poll_text. now rewrite get_status_spec. Qed.

(** One turn of the loop. *)
Lemma wait_loop_step fuel w t :
  wait_loop h (S fuel) w t =
  let r := spawn h t status_argv in
  let poll := [EvSpawn status_argv r; EvSleep 500] in
  match status_of r with
  | Ok s =>
      if is_connected s then (Ok true, [EvSpawn status_argv r])
      else if w >? 20 then (Ok false, poll)
           else (fst (wait_loop h fuel (w + 1) (t ++ poll)%list),
                 (poll ++ snd (wait_loop h fuel (w + 1) (t ++ poll)%list))%list)
  | Raise e => (Raise e, [EvSpawn status_argv r])
  | OutOfFuel => (OutOfFuel, [EvSpawn status_argv r])
  end.
Proof.
  cbv zeta. cbn [wait_loop]. unfold bind at 1. rewrite get_status_spec.
  change (sh (status_command false)) with status_argv.
  destruct (status_of (spawn h t status_argv)) as [s|e|]; try reflexivity.
  destruct (is_connected s); [reflexivity|].
  unfold bind, sleep. destruct (w >? 20); [reflexivity|].
  rewrite <- app_assoc. simpl.
  destruct (wait_loop h fuel (w + 1) _) as [r e]. reflexivity.
Qed.

Lemma poll_history_shift t k :
  poll_history h t (S k) = poll_history h (poll_history h t 1) k.
Proof.
  induction k as [|k IH]; [reflexivity|].
  change (poll_history h t (S (S k))) with
    (poll_history h t (S k)
       ++ [EvSpawn status_argv (spawn h (poll_history h t (S k)) status_argv);
           EvSleep 500])%list.
  rewrite IH. reflexivity.
Qed.

Lemma status_of_not_fuel r : status_of r <> OutOfFuel.
Proof.
  unfold status_of, decoded. destruct r as [|p]; [discriminate|].
  destruct (utf8_valid (stdout p)), (utf8_valid (stderr p)); discriminate.
Qed.


(** *** The loop: fuel *)

Lemma wait_loop_fuel fuel w t :
  (1 <= fuel)%nat -> 22 - w <= Z.of_nat fuel ->
  fst (wait_loop h fuel w t) <> OutOfFuel.
Proof.
  revert w t. induction fuel as [|fuel IH]; intros w t H1 H2; [lia|].
  rewrite wait_loop_step. cbv zeta.
  pose proof (status_of_not_fuel (spawn h t status_argv)) as Hs.
  destruct (status_of (spawn h t status_argv)) as [s|e|];
    [|discriminate|congruence].
  destruct (is_connected s); [discriminate|].
  destruct (Z.gtb_spec w 20); [discriminate|].
  simpl. apply IH; lia.
Qed.

(** *** The loop: every poll fails *)

Lemma wait_loop_timeout m fuel w t :
  Z.of_nat m = 21 - w -> (m < fuel)%nat ->
  (forall k, (k <= m)%nat -> poll_not_connected h t k) ->
  fst (wait_loop h fuel w t) = Ok false /\
  (t ++ snd (wait_loop h fuel w t))%list = poll_history h t (S m).
Proof.
  revert fuel w t. induction m as [|m IH]; intros fuel w t Hw Hf Hp;
    (destruct fuel as [|fuel]; [lia|]); rewrite wait_loop_step; cbv zeta;
    destruct (Hp 0%nat ltac:(lia)) as [s [Hs Hc]];
    rewrite poll_text_spec in Hs; simpl in Hs; rewrite Hs, Hc.
  - destruct (Z.gtb_spec w 20); [|lia]. split; reflexivity.
  - destruct (Z.gtb_spec w 20); [lia|]. simpl fst; simpl snd.
    destruct (IH fuel (w + 1)
                (t ++ [EvSpawn status_argv (spawn h t status_argv); EvSleep 500])%list)
      as [Hr Ht]; [lia | lia | |].
    + intros k Hk. destruct (Hp (S k) ltac:(lia)) as [s' [Hs' Hc']].
      exists s'. split; [|exact Hc'].
      unfold poll_text in *. rewrite poll_history_shift in Hs'. exact Hs'.
    + split; [exact Hr|]. rewrite poll_history_shift.
      change (poll_history h t 1) with
        (t ++ [EvSpawn status_argv (spawn h t status_argv); EvSleep 500])%list.
      rewrite <- Ht, <- app_assoc. reflexivity.
Qed.

(** *** The loop: a poll succeeds *)

Lemma wait_loop_found k fuel w t :
  w + Z.of_nat k <= 21 -> (k < fuel)%nat ->
  (forall j, (j < k)%nat -> poll_not_connected h t j) ->
  poll_connected h t k ->
  fst (wait_loop h fuel w t) = Ok true /\
  (t ++ snd (wait_loop h fuel w t))%list =
  (poll_history h t k
     ++ [EvSpawn status_argv (spawn h (poll_history h t k) status_argv)])%list.
Proof.
  revert fuel w t. induction k as [|k IH]; intros fuel w t Hw Hf Hp Hc;
    (destruct fuel as [|fuel]; [lia|]); rewrite wait_loop_step; cbv zeta.
  - destruct Hc as [s [Hs Hc]]. rewrite poll_text_spec in Hs. simpl in Hs.
    rewrite Hs, Hc. split; reflexivity.
  - destruct (Hp 0%nat ltac:(lia)) as [s [Hs Hn]].
    rewrite poll_text_spec in Hs. simpl in Hs. rewrite Hs, Hn.
    destruct (Z.gtb_spec w 20); [lia|]. simpl fst; simpl snd.
    destruct (IH fuel (w + 1)
                (t ++ [EvSpawn status_argv (spawn h t status_argv); EvSleep 500])%list)
      as [Hr Ht]; [lia | lia | | |].
    + intros j Hj. destruct (Hp (S j) ltac:(lia)) as [s' [Hs' Hc']].
      exists s'. split; [|exact Hc'].
      unfold poll_text in *. rewrite poll_history_shift in Hs'. exact Hs'.
    + destruct Hc as [s' [Hs' Hc']]. exists s'. split; [|exact Hc'].
      unfold poll_text in *. rewrite poll_history_shift in Hs'. exact Hs'.
    + split; [exact Hr|]. rewrite poll_history_shift.
      change (poll_history h t 1) with
        (t ++ [EvSpawn status_argv (spawn h t status_argv); EvSleep 500])%list.
      rewrite <- Ht, <- app_assoc. reflexivity.
Qed.

(** *** The loop: what it spawns, and how it ends *)



(** *** [connect] *)

Lemma decoded_not_fuel r : decoded r <> OutOfFuel.
Proof.
  unfold decoded. destruct r as [|p]; [discriminate|].
  destruct (utf8_valid (stdout p)), (utf8_valid (stderr p)); discriminate.
Qed.

Ltac run_next E :=
  rewrite ?set_relay_location_spec in E; try unfold disconnect in E;
  rewrite run_command_spec in E;
  match type of E with
  | context [decoded ?r] =>
      let H := fresh "Hrun" in
      pose proof (decoded_not_fuel r) as H;
      destruct (decoded r) as [[? ?]| ? |]; [|clear H|congruence]
  end; cbv beta iota delta [bind ret] in E.

Lemma connect_begin_cases country city server t s0 :
  status_of (spawn h t status_argv) = Ok s0 ->
  let pre := preamble (is_connected s0) country city server in
  let issued := spawns (snd (connect_begin h country city server t)) in
  is_prefix issued pre /\
  (is_connected s0 = true ->
   exists rest, issued = status_argv :: sh "mullvad disconnect" :: rest) /\
  (forall u, fst (connect_begin h country city server t) = Ok u -> issued = pre) /\
  fst (connect_begin h country city server t) <> OutOfFuel.
Proof.
  intros Hs. cbv zeta. unfold preamble, is_prefix.
  remember (connect_begin h country city server t) as cb eqn:E.
  unfold connect_begin in E. unfold bind at 1 in E.
  rewrite get_status_spec in E.
  change (sh (status_command false)) with status_argv in E. rewrite Hs in E.
  destruct (is_connected s0); cbv beta iota delta [bind ret] in E;
    repeat run_next E; subst cb;
    (split; [|split; [|split]];
     [ eexists; simpl; reflexivity
     | intros; try discriminate; eexists; simpl; reflexivity
     | intros; try discriminate; reflexivity
     | discriminate ]).
Qed.

Lemma connect_fst country city server t :
  fst (connect h country city server t) =
  match fst (connect_begin h country city server t) with
  | Ok _ => fst (wait_loop h 22 0 (loop_entry h country city server t))
  | Raise e => Raise e
  | OutOfFuel => OutOfFuel
  end.
Proof.
  unfold connect, loop_entry, bind.
  destruct (connect_begin h country city server t) as [[u|e|] e1];
    try reflexivity.
  cbn [fst snd]. destruct (wait_loop h 22 0 (t ++ e1)%list); reflexivity.
Qed.

Lemma connect_snd country city server t :
  snd (connect h country city server t) =
  (snd (connect_begin h country city server t)
     ++ match fst (connect_begin h country city server t) with
        | Ok _ => snd (wait_loop h 22 0 (loop_entry h country city server t))
        | _ => []
        end)%list.
Proof.
  unfold connect, loop_entry, bind.
  destruct (connect_begin h country city server t) as [[u|e|] e1];
    cbn [fst snd]; rewrite ?app_nil_r; try reflexivity.
  destruct (wait_loop h 22 0 (t ++ e1)%list); reflexivity.
Qed.

End WithHost.

End MullvadFacts.

(** ** The connection state machine *)

Module ConnectSpec.

Import PyStr PyStrFacts ParseFacts MullvadFacts Hosts.

Lemma connect_begin_not_fuel h country city server t :
  fst (connect_begin h country city server t) <> OutOfFuel.
Proof.
  destruct (status_of (spawn h t status_argv)) as [s0|e|] eqn:Hs.
  - apply (connect_begin_cases h country city server t s0 Hs).
  - unfold connect_begin. unfold bind at 1. rewrite get_status_spec.
    change (sh (status_command false)) with status_argv. rewrite Hs.
    discriminate.
  - now apply status_of_not_fuel in Hs.
Qed.

(** The fuel given to the loop by [connect] is never used up: [connect]
    always ends with a boolean or a Python exception. *)
Lemma connect_terminates h country city server t :
  fst (connect h country city server t) <> OutOfFuel.
Proof.
  rewrite connect_fst.
  pose proof (connect_begin_not_fuel h country city server t) as Hb.
  destruct (fst (connect_begin h country city server t)) as [u|e|];
    [|discriminate|congruence].
  apply wait_loop_fuel; lia.
Qed.





(** *** The order of the commands *)






(** *** What the result depends on *)




End ConnectSpec.

(** ** The command runner and the one-shot operations *)

Module CommandSpec.

Import PyStr PyStrFacts ParseFacts MullvadFacts Hosts.

Lemma append_same_prefix (x y : string) : x ++ y = x -> y = EmptyString.
Proof. induction x as [|c x IH]; simpl; [auto | intros [= H]; auto]. Qed.

Lemma decoded_exits code out err :
  utf8_valid out = true -> utf8_valid err = true ->
  decoded (exits code out err) = Ok (out, err).
Proof. intros Ho He. unfold decoded, exits. simpl. now rewrite Ho, He. Qed.

(** C3: the text [get_status] returns reads as connected exactly when
    the report printed by the client contains [Connected]; a report
    without that substring never reads as connected. *)
Theorem status_classification h verbose t code out err :
  spawn h t (sh (status_command verbose)) = exits code out err ->
  utf8_valid out = true -> utf8_valid err = true ->
  exists text,
    fst (get_status h verbose t) = Ok text /\
    (is_connected text = true <-> Occurs "Connected" text) /\
    (is_connected text = true <-> Occurs "Connected" out) /\
    (is_connected text = false <-> ~ Occurs "Connected" out).
Proof.
  intros Hr Ho He. rewrite get_status_spec, Hr. cbn [fst].
  unfold status_of. rewrite (decoded_exits code out err Ho He). cbn [fst].
  exists (strip out). split; [reflexivity|].
  assert (H1 : is_connected (strip out) = true <-> Occurs "Connected" (strip out))
    by apply contains_spec.
  assert (H2 : Occurs "Connected" (strip out) <-> Occurs "Connected" out)
    by (apply occurs_strip; [discriminate | reflexivity]).
  split; [exact H1|]. split; [tauto|].
  rewrite <- not_true_iff_false. tauto.
Qed.

Lemma status_classification_witness :
  exists text,
    fst (get_status (connecting_until 0 0 EmptyString EmptyString) false [])
    = Ok text /\
    (is_connected text = true <-> Occurs "Connected" text) /\
    (is_connected text = true <-> Occurs "Connected" (line "Connected")) /\
    (is_connected text = false <-> ~ Occurs "Connected" (line "Connected")).
Proof.
  exact (status_classification
           (connecting_until 0 0 EmptyString EmptyString) false []
           0 (line "Connected") EmptyString eq_refl eq_refl eq_refl).
Defined.

(** C4: [set_relay_location] issues one command.  With a server given
    it is the three-argument form, the city position holding the city
    as an f-string renders it; with no server and a city given, the
    two-argument form; with neither, the country alone. *)
Theorem set_relay_location_forms h country city server t :
  let issued := spawns (snd (set_relay_location h country city server t)) in
  (forall s, server = Some s -> s <> EmptyString ->
     issued = [sh ("mullvad relay set location " ++ country ++ " "
                     ++ fmt city ++ " " ++ s)]) /\
  (forall c s, city = Some c -> server = Some s -> s <> EmptyString ->
     issued = [sh ("mullvad relay set location " ++ country ++ " "
                     ++ c ++ " " ++ s)]) /\
  (forall c, absent server -> city = Some c -> c <> EmptyString ->
     issued = [sh ("mullvad relay set location " ++ country ++ " " ++ c)]) /\
  (absent server -> absent city ->
     issued = [sh ("mullvad relay set location " ++ country)]).
Proof.
  cbv zeta. rewrite set_relay_location_spec, run_command_spec.
  cbn [snd spawns]. unfold location_command, absent.
  repeat split.
  - intros s -> Hs. destruct s; [congruence | reflexivity].
  - intros c s -> -> Hs. destruct s; [congruence | reflexivity].
  - intros c [-> | ->] -> Hc; (destruct c; [congruence | reflexivity]).
  - intros [-> | ->] [-> | ->]; reflexivity.
Qed.

Lemma set_relay_location_forms_witness :
  spawns (snd (set_relay_location (always 0 EmptyString)
                 "se" (Some "got") (Some "se-got-wg-001") [])) =
    [sh "mullvad relay set location se got se-got-wg-001"] /\
  spawns (snd (set_relay_location (always 0 EmptyString)
                 "se" (Some "got") None [])) =
    [sh "mullvad relay set location se got"] /\
  spawns (snd (set_relay_location (always 0 EmptyString)
                 "se" None None [])) =
    [sh "mullvad relay set location se"].
Proof.
  split; [|split].
  - refine (proj1 (proj2 (set_relay_location_forms (always 0 EmptyString)
              "se" (Some "got") (Some "se-got-wg-001") []))
              "got" "se-got-wg-001" eq_refl eq_refl _).
    discriminate.
  - refine (proj1 (proj2 (proj2 (set_relay_location_forms
              (always 0 EmptyString) "se" (Some "got") None [])))
              "got" (or_introl eq_refl) eq_refl _).
    discriminate.
  - exact (proj2 (proj2 (proj2 (set_relay_location_forms
              (always 0 EmptyString) "se" None None [])))
              (or_introl eq_refl) (or_introl eq_refl)).
Defined.

(** C5, as the specification words it, does not hold: with the server
    [us-nyc-wg-101] and no city, the command issued is not the
    country-only form. *)
Lemma server_without_city_refuted : ~ server_without_city_degrades.
Proof.
  intros H.
  specialize (H (always 0 EmptyString) "us" "us-nyc-wg-101" []).
  assert (E : spawns (snd (set_relay_location (always 0 EmptyString) "us"
                             None (Some "us-nyc-wg-101") []))
              = [sh "mullvad relay set location us None us-nyc-wg-101"])
    by reflexivity.
  rewrite E in H. specialize (H ltac:(discriminate)). discriminate H.
Qed.

(** C5 (amended): a server given without a city selects the
    three-argument form, never the country-only one; the city position
    then holds the rendering of the absent value. *)
Theorem server_without_city_form h country s t :
  s <> EmptyString ->
  spawns (snd (set_relay_location h country None (Some s) t)) =
      [sh ("mullvad relay set location " ++ country ++ " " ++ fmt None
           ++ " " ++ s)] /\
  spawns (snd (set_relay_location h country None (Some s) t)) <>
    [sh (country_only country)].
Proof.
  intros Hs.
  assert (E : spawns (snd (set_relay_location h country None (Some s) t)) =
              [sh ("mullvad relay set location " ++ country ++ " " ++ fmt None
                     ++ " " ++ s)]).
  { rewrite set_relay_location_spec, run_command_spec. cbn [snd spawns].
    unfold location_command. destruct s; [congruence | reflexivity]. }
  split; [exact E|]. rewrite E. unfold country_only, sh. intros [= H].
  apply append_same_prefix in H. discriminate H.
Qed.

Lemma server_without_city_form_witness :
  spawns (snd (set_relay_location (always 0 EmptyString) "us" None
                 (Some "us-nyc-wg-101") [])) =
    [sh "mullvad relay set location us None us-nyc-wg-101"].
Proof.
  refine (proj1 (server_without_city_form (always 0 EmptyString)
                   "us" "us-nyc-wg-101" [] _)).
  discriminate.
Defined.

(** C6: whatever the command and whatever the exit status of the
    process, [run_command] returns the captured output and error
    streams as text; the exit status plays no part in the result. *)
Theorem run_command_ignores_exit_status h command t code out err :
  spawn h t (sh command) = exits code out err ->
  utf8_valid out = true -> utf8_valid err = true ->
  run_command h command t =
  (Ok (out, err), [EvSpawn (sh command) (exits code out err)]).
Proof.
  intros Hr Ho He. rewrite run_command_spec, Hr.
  now rewrite (decoded_exits code out err Ho He).
Qed.

Lemma run_command_ignores_exit_status_witness :
  fst (run_command (always 1 "Error: not logged in") "mullvad connect" []) =
  Ok ("Error: not logged in", EmptyString).
Proof.
  exact (f_equal fst
           (run_command_ignores_exit_status
              (always 1 "Error: not logged in") "mullvad connect" []
              1 "Error: not logged in" EmptyString
              eq_refl eq_refl eq_refl)).
Defined.

(** C9: [disconnect] issues the disconnect command and nothing else: no
    status query, no sleep, no second attempt; it returns the pair that
    command printed. *)
Theorem disconnect_is_single_shot h t :
  snd (disconnect h t) =
    [EvSpawn (sh "mullvad disconnect") (spawn h t (sh "mullvad disconnect"))]
  /\ ~ In status_argv (spawns (snd (disconnect h t)))
  /\ slept (snd (disconnect h t)) = 0%N
  /\ (forall code out err,
        spawn h t (sh "mullvad disconnect") = exits code out err ->
        utf8_valid out = true -> utf8_valid err = true ->
        fst (disconnect h t) = Ok (out, err)).
Proof.
  unfold disconnect. rewrite run_command_spec. cbn [fst snd spawns slept].
  repeat split.
  - intros [H | []]. discriminate H.
  - intros code out err -> Ho He. now apply decoded_exits.
Qed.

Lemma disconnect_is_single_shot_witness :
  fst (disconnect (always 0 "Disconnecting...") []) =
  Ok ("Disconnecting...", EmptyString).
Proof.
  exact (proj2 (proj2 (proj2 (disconnect_is_single_shot
                                (always 0 "Disconnecting...") [])))
           0 "Disconnecting..." EmptyString eq_refl eq_refl eq_refl).
Defined.

End CommandSpec.

(** ** The account number *)

Module AccountSpec.

Import PyStr PyStrFacts ParseFacts MullvadFacts Hosts.

Lemma account_number_of_events output t : snd (account_number_of output t) = [].
Proof.
  unfold account_number_of, bind, index, int, of_option, ret, raise.
  destruct (nth_error (split LF (strip output)) 0) as [line|]; [|reflexivity].
  destruct (nth_error (split ":" line) 1) as [field|]; [|reflexivity].
  destruct (parse_int (strip field)); reflexivity.
Qed.



Lemma account_number_of_never_bool output t b :
  fst (account_number_of output t) <> Ok (PyBool b).
Proof.
  unfold account_number_of, bind, index, int, of_option, ret, raise.
  destruct (nth_error (split LF (strip output)) 0) as [line|]; [|discriminate].
  cbv beta iota.
  destruct (nth_error (split ":" line) 1) as [field|]; [|discriminate].
  cbv beta iota. destruct (parse_int (strip field)); discriminate.
Qed.

Lemma get_account_number_spec h t :
  get_account_number h t =
  let r := spawn h t account_argv in
  match r with
  | SpawnFailed => (Raise OSError, [EvSpawn account_argv r])
  | Exited p =>
      match text_mode h (stdout p) with
      | None => (Raise UnicodeDecodeError, [EvSpawn account_argv r])
      | Some output =>
          if returncode p =? 0 then
            (fst (account_number_of output (t ++ [EvSpawn account_argv r])%list),
             [EvSpawn account_argv r])
          else
            (Ok (PyBool false),
             [EvSpawn account_argv r;
              EvPrint "Mullvad VPN CLI tool not available."])
      end
  end.
Proof.
  cbv zeta. unfold get_account_number, bind, try_except, check_output.
  fold account_argv.
  destruct (spawn h t account_argv) as [|p]; [reflexivity|].
  destruct (text_mode h (stdout p)) as [output|]; [|reflexivity].
  destruct (returncode p =? 0); [|reflexivity].
  pose proof (account_number_of_events output
                (t ++ [EvSpawn account_argv (Exited p)])%list) as He.
  destruct (account_number_of output _) as [r e]. cbn in He |- *.
  now rewrite He.
Qed.




End AccountSpec.

(** ** Programs that cannot be launched *)

Module SpawnSpec.

Import PyStr PyStrFacts ParseFacts MullvadFacts Hosts AccountSpec.

Lemma account_number_of_outcomes output t :
  (exists n, fst (account_number_of output t) = Ok (PyInt n)) \/
  fst (account_number_of output t) = Raise IndexError \/
  fst (account_number_of output t) = Raise ValueError.
Proof.
  unfold account_number_of, bind, index, int, of_option, ret, raise.
  destruct (nth_error (split LF (strip output)) 0) as [line|];
    [|right; left; reflexivity].
  cbv beta iota.
  destruct (nth_error (split ":" line) 1) as [field|];
    [|right; left; reflexivity].
  cbv beta iota.
  destruct (parse_int (strip field)) as [n|];
    [left; exists n; reflexivity | right; right; reflexivity].
Qed.

(** C8, as the specification words it, does not hold: on a machine
    with a shell and no [mullvad] program, [run_command] returns the
    shell's complaint as an ordinary pair of texts. *)
Lemma missing_binary_refuted : ~ missing_binary_raises.
Proof.
  intros H.
  apply (H no_mullvad "mullvad disconnect" []).
  - intros t' args. destruct args as [|a [|b [|c r]]]; reflexivity.
  - exists (EmptyString, line "/bin/sh: 1: mullvad: not found").
    reflexivity.
Qed.

(** C8 (amended): an operation raises [OSError] exactly when the
    program it launches itself cannot be spawned, after a single
    attempt.  [get_account_number] launches [mullvad]; a command that
    ran and failed makes it return [False] instead.  [run_command]
    launches the shell, so only a shell that cannot be spawned makes it
    raise. *)
Theorem spawn_failure_surfaces h t :
  (fst (get_account_number h t) = Raise OSError <->
   spawn h t account_argv = SpawnFailed) /\
  (spawn h t account_argv = SpawnFailed ->
   snd (get_account_number h t) = [EvSpawn account_argv SpawnFailed]) /\
  (forall p, spawn h t account_argv = Exited p ->
     text_mode h (stdout p) <> None -> returncode p <> 0 ->
     fst (get_account_number h t) = Ok (PyBool false)) /\
  (forall command,
     (fst (run_command h command t) = Raise OSError <->
      spawn h t (sh command) = SpawnFailed) /\
     snd (run_command h command t) =
       [EvSpawn (sh command) (spawn h t (sh command))]).
Proof.
  rewrite get_account_number_spec. cbv zeta.
  split; [|split; [|split]].
  - destruct (spawn h t account_argv) as [|p]; [tauto|].
    split; [|discriminate].
    destruct (text_mode h (stdout p)) as [output|]; [|discriminate].
    destruct (returncode p =? 0); [|discriminate].
    cbn [fst]. intros H.
    destruct (account_number_of_outcomes output
                (t ++ [EvSpawn account_argv (Exited p)])%list)
      as [[n E] | [E | E]]; rewrite E in H; discriminate.
  - intros ->. reflexivity.
  - intros p -> Ht Hc.
    destruct (text_mode h (stdout p)) as [output|]; [|congruence].
    destruct (Z.eqb_spec (returncode p) 0); [congruence | reflexivity].
  - intros command. rewrite run_command_spec. cbn [fst snd].
    split; [|reflexivity]. unfold decoded.
    destruct (spawn h t (sh command)) as [|p]; [tauto|].
    split; [|discriminate].
    destruct (utf8_valid (stdout p)), (utf8_valid (stderr p)); discriminate.
Qed.

Lemma spawn_failure_surfaces_witness :
  fst (get_account_number no_mullvad []) = Raise OSError /\
  snd (get_account_number no_mullvad []) = [EvSpawn account_argv SpawnFailed] /\
  fst (get_account_number (always 1 "Error: no account") []) = Ok (PyBool false)
  /\ fst (run_command nothing_runs "mullvad status" []) = Raise OSError.
Proof.
  split; [|split; [|split]].
  - exact (proj2 (proj1 (spawn_failure_surfaces no_mullvad [])) eq_refl).
  - exact (proj1 (proj2 (spawn_failure_surfaces no_mullvad [])) eq_refl).
  - refine (proj1 (proj2 (proj2 (spawn_failure_surfaces
                                   (always 1 "Error: no account") [])))
              _ eq_refl _ _); discriminate.
  - exact (proj2 (proj1 (proj2 (proj2 (proj2
             (spawn_failure_surfaces nothing_runs []))) "mullvad status"))
             eq_refl).
Defined.

End SpawnSpec.

(** ** More facts about the text primitives *)

Module TextFacts.

Import PyStr PyStrFacts ParseFacts.









(** *** [split] and [join] *)



(** *** [str] of an [int], and [int] of the result *)










End TextFacts.

(** ** How long [connect] runs, and what its result tells *)

Module LoopFacts.

Import PyStr PyStrFacts ParseFacts MullvadFacts Hosts.

Lemma bind_slept_le {A B} (m : M A) (f : A -> M B) t a b :
  (slept (snd (m t)) <= a)%N ->
  (forall x t', slept (snd (f x t')) <= b)%N ->
  (slept (snd (bind m f t)) <= a + b)%N.
Proof.
  intros Hm Hf. unfold bind. destruct (m t) as [[x|e|] e1]; cbn [snd] in *;
    try lia.
  specialize (Hf x (t ++ e1)%list). destruct (f x (t ++ e1)%list) as [r e2].
  cbn [snd] in *. rewrite slept_app. lia.
Qed.

Lemma bind_spawns_le {A B} (m : M A) (f : A -> M B) t a b :
  (length (spawns (snd (m t))) <= a)%nat ->
  (forall x t', length (spawns (snd (f x t'))) <= b)%nat ->
  (length (spawns (snd (bind m f t))) <= a + b)%nat.
Proof.
  intros Hm Hf. unfold bind. destruct (m t) as [[x|e|] e1]; cbn [snd] in *;
    try lia.
  specialize (Hf x (t ++ e1)%list). destruct (f x (t ++ e1)%list) as [r e2].
  cbn [snd] in *. rewrite spawns_app, length_app. lia.
Qed.

Section WithHost.

Variable h : Host.t.

Lemma run_command_quiet command t :
  slept (snd (run_command h command t)) = 0%N /\
  length (spawns (snd (run_command h command t))) = 1%nat.
Proof. rewrite run_command_spec. split; reflexivity. Qed.

Lemma get_status_quiet verbose t :
  slept (snd (get_status h verbose t)) = 0%N /\
  length (spawns (snd (get_status h verbose t))) = 1%nat.
Proof. rewrite get_status_spec. split; reflexivity. Qed.

Lemma set_relay_location_quiet country city server t :
  slept (snd (set_relay_location h country city server t)) = 0%N /\
  length (spawns (snd (set_relay_location h country city server t))) = 1%nat.
Proof. rewrite set_relay_location_spec. apply run_command_quiet. Qed.

Lemma connect_begin_bounds country city server t :
  slept (snd (connect_begin h country city server t)) = 0%N /\
  (length (spawns (snd (connect_begin h country city server t))) <= 4)%nat.
Proof.
  unfold connect_begin. split.
  - apply N.le_0_r.
    apply (bind_slept_le _ _ _ 0%N 0%N);
      [now rewrite (proj1 (get_status_quiet false t))|].
    intros s0 t0. apply (bind_slept_le _ _ _ 0%N 0%N).
    { destruct (is_connected s0); [|cbn; lia].
      apply (bind_slept_le _ _ _ 0%N 0%N); [|intros; cbn; lia].
      unfold disconnect. now rewrite (proj1 (run_command_quiet _ _)). }
    intros _ t1. apply (bind_slept_le _ _ _ 0%N 0%N);
      [now rewrite (proj1 (set_relay_location_quiet _ _ _ _))|].
    intros _ t2. apply (bind_slept_le _ _ _ 0%N 0%N); [|intros; cbn; lia].
    now rewrite (proj1 (run_command_quiet _ _)).
  - apply (bind_spawns_le _ _ _ 1%nat 3%nat);
      [now rewrite (proj2 (get_status_quiet false t))|].
    intros s0 t0. apply (bind_spawns_le _ _ _ 1%nat 2%nat).
    { destruct (is_connected s0); [|cbn; lia].
      apply (bind_spawns_le _ _ _ 1%nat 0%nat); [|intros; cbn; lia].
      unfold disconnect. now rewrite (proj2 (run_command_quiet _ _)). }
    intros _ t1. apply (bind_spawns_le _ _ _ 1%nat 1%nat);
      [now rewrite (proj2 (set_relay_location_quiet _ _ _ _))|].
    intros _ t2. apply (bind_spawns_le _ _ _ 1%nat 0%nat); [|intros; cbn; lia].
    now rewrite (proj2 (run_command_quiet _ _)).
Qed.

Lemma wait_loop_bounds fuel w t :
  (slept (snd (wait_loop h fuel w t)) <= 500 * N.of_nat fuel)%N /\
  (length (spawns (snd (wait_loop h fuel w t))) <= fuel)%nat.
Proof.
  revert w t. induction fuel as [|fuel IH]; intros w t.
  - cbn. split; lia.
  - cbn [wait_loop]. split.
    + replace (500 * N.of_nat (S fuel))%N
        with (0 + (500 + 500 * N.of_nat fuel))%N by lia.
      apply bind_slept_le; [now rewrite (proj1 (get_status_quiet false t))|].
      intros s t1. destruct (is_connected s); [cbn; lia|].
      apply bind_slept_le; [cbn; lia|].
      intros _ t2. destruct (w >? 20); [cbn; lia | apply IH].
    + apply (bind_spawns_le _ _ _ 1%nat fuel);
        [now rewrite (proj2 (get_status_quiet false t))|].
      intros s t1. destruct (is_connected s); [cbn; lia|].
      apply (bind_spawns_le _ _ _ 0%nat fuel); [cbn; lia|].
      intros _ t2. destruct (w >? 20); [cbn; lia | apply IH].
Qed.

Lemma slept_poll_history t k :
  slept (poll_history h t k) = (slept t + 500 * N.of_nat k)%N.
Proof.
  induction k as [|k IH]; [cbn; lia|].
  cbn [poll_history]. rewrite slept_app, IH. cbn [slept]. lia.
Qed.

Lemma poll_shift_not_connected t k :
  poll_not_connected h t (S k) <->
  poll_not_connected h
    (t ++ [EvSpawn status_argv (spawn h t status_argv); EvSleep 500])%list k.
Proof.
  unfold poll_not_connected, poll_text. rewrite poll_history_shift.
  reflexivity.
Qed.

Lemma poll_shift_connected t k :
  poll_connected h t (S k) <->
  poll_connected h
    (t ++ [EvSpawn status_argv (spawn h t status_argv); EvSleep 500])%list k.
Proof.
  unfold poll_connected, poll_text. rewrite poll_history_shift.
  reflexivity.
Qed.

(** What a boolean returned by the loop says about the polls. *)
Lemma wait_loop_sound fuel w t b :
  fst (wait_loop h fuel w t) = Ok b ->
  (b = true ->
   exists k, (k < fuel)%nat /\ (k = 0%nat \/ w + Z.of_nat k <= 21) /\
     (forall j, (j < k)%nat -> poll_not_connected h t j) /\
     poll_connected h t k) /\
  (b = false ->
   exists m, (m < fuel)%nat /\ 20 < w + Z.of_nat m /\
     (m = 0%nat \/ w + Z.of_nat m = 21) /\
     (forall k, (k <= m)%nat -> poll_not_connected h t k)).
Proof.
  revert w t. induction fuel as [|fuel IH]; intros w t; [discriminate|].
  rewrite wait_loop_step. cbv zeta.
  destruct (status_of (spawn h t status_argv)) as [s|e|] eqn:Hs;
    try discriminate.
  assert (Hp : poll_text h t 0 = Ok s) by now rewrite poll_text_spec.
  destruct (is_connected s) eqn:Hc.
  - intros [= <-]. split; [|discriminate]. intros _.
    exists 0%nat. repeat split; [lia | now left | intros; lia |].
    exists s. auto.
  - assert (H0 : poll_not_connected h t 0) by (exists s; auto).
    destruct (Z.gtb_spec w 20) as [Hw|Hw].
    + intros [= <-]. split; [discriminate|]. intros _.
      exists 0%nat. repeat split; [lia | lia | now left |].
      intros k Hk. now replace k with 0%nat by lia.
    + cbn [fst]. intros Hr. destruct (IH _ _ Hr) as [Ht Hf]. split.
      * intros Hb. destruct (Ht Hb) as [k [Hk [Hwk [Hn Hcn]]]].
        exists (S k). repeat split; [lia | right; lia | |].
        -- intros [|j] Hj; [exact H0|].
           apply poll_shift_not_connected, Hn. lia.
        -- now apply poll_shift_connected.
      * intros Hb. destruct (Hf Hb) as [m [Hm [Hwm [Hmm Hn]]]].
        exists (S m). repeat split; [lia | lia | right; lia |].
        intros [|k] Hk; [exact H0|].
        apply poll_shift_not_connected, Hn. lia.
Qed.

End WithHost.

End LoopFacts.

(** ** Further properties of [connect] *)

Module ConnectMore.

Import PyStr PyStrFacts ParseFacts MullvadFacts Hosts LoopFacts.

(** X1: whatever the host answers, [connect] ends with a boolean or an
    exception, having slept at most 22 times 0.5 s and launched at most
    26 processes. *)
Theorem connect_blocking_bound h country city server t :
  fst (connect h country city server t) <> OutOfFuel /\
  (slept (snd (connect h country city server t)) <= 11000)%N /\
  (length (spawns (snd (connect h country city server t))) <= 26)%nat.
Proof.
  split; [apply ConnectSpec.connect_terminates|].
  unfold connect. split.
  - apply (bind_slept_le _ _ _ 0%N 11000%N).
    + now rewrite (proj1 (connect_begin_bounds h country city server t)).
    + intros _ t'. apply (wait_loop_bounds h 22 0 t').
  - apply (bind_spawns_le _ _ _ 4%nat 22%nat).
    + apply connect_begin_bounds.
    + intros _ t'. apply (wait_loop_bounds h 22 0 t').
Qed.

Lemma connect_slept h country city server t u :
  fst (connect_begin h country city server t) = Ok u ->
  slept (snd (connect h country city server t)) =
  slept (snd (wait_loop h 22 0 (loop_entry h country city server t))).
Proof.
  intros Hb. rewrite connect_snd, Hb, slept_app.
  now rewrite (proj1 (connect_begin_bounds h country city server t)).
Qed.

(** X2: the converse of the poll bound.  [True] is returned only when
    some poll among the 22 read as connected, the earlier ones did not,
    and the time slept is 0.5 s per earlier poll; [False] only when all
    22 polls were made and none read as connected, after 11 s of
    sleep. *)
Theorem connect_result_sound h country city server t b :
  fst (connect h country city server t) = Ok b ->
  let entry := loop_entry h country city server t in
  let slept_ms := slept (snd (connect h country city server t)) in
  (b = true ->
   exists k, (k < 22)%nat /\
     (forall j, (j < k)%nat -> poll_not_connected h entry j) /\
     poll_connected h entry k /\
     slept_ms = (500 * N.of_nat k)%N) /\
  (b = false ->
   (forall k, (k < 22)%nat -> poll_not_connected h entry k) /\
   slept_ms = 11000%N).
Proof.
  intros Hr. cbv zeta. rewrite connect_fst in Hr.
  destruct (fst (connect_begin h country city server t)) as [u|e|] eqn:Hb;
    try discriminate.
  rewrite (connect_slept h country city server t u Hb).
  set (entry := loop_entry h country city server t) in *.
  destruct (wait_loop_sound h 22 0 entry b Hr) as [Ht Hf]. split.
  - intros ->. destruct (Ht eq_refl) as [k [Hk [Hwk [Hn Hc]]]].
    exists k. repeat split; try assumption.
    destruct (wait_loop_found h k 22 0 entry) as [_ Htr];
      [lia | lia | assumption | assumption |].
    apply (f_equal slept) in Htr.
    rewrite !slept_app, slept_poll_history in Htr. cbn [slept] in Htr. lia.
  - intros ->. destruct (Hf eq_refl) as [m [Hm [Hwm [Hmm Hn]]]].
    assert (m = 21)%nat by lia. subst m.
    split; [intros k Hk; apply Hn; lia|].
    destruct (wait_loop_timeout h 21 22 0 entry) as [_ Htr];
      [lia | lia | assumption |].
    apply (f_equal slept) in Htr.
    rewrite slept_app, slept_poll_history in Htr. lia.
Qed.

Lemma connect_result_sound_witness :
  slept (snd (connect (connecting_until 23 0 EmptyString EmptyString)
                "us" None None [])) = 11000%N.
Proof.
  exact (proj2 (proj2 (connect_result_sound
                         (connecting_until 23 0 EmptyString EmptyString)
                         "us" None None [] false eq_refl) eq_refl)).
Defined.

End ConnectMore.

(** ** The other operations *)

Module Operations.

Import PyStr PyStrFacts ParseFacts TextFacts MullvadFacts Hosts AccountSpec.
























(** X11: [get_account_number] returns [False] exactly when the command
    ran, its output could be decoded and its exit status is not zero;
    it prints its one line exactly then, and never returns [True].
    Output that cannot be decoded raises [UnicodeDecodeError] whatever
    the exit status.  One process is launched in every case. *)
Theorem get_account_number_failed_command h t :
  (fst (get_account_number h t) = Ok (PyBool false) <->
   exists p, spawn h t account_argv = Exited p /\
     text_mode h (stdout p) <> None /\ returncode p <> 0) /\
  (In (EvPrint unavailable) (snd (get_account_number h t)) <->
   fst (get_account_number h t) = Ok (PyBool false)) /\
  fst (get_account_number h t) <> Ok (PyBool true) /\
  (forall p, spawn h t account_argv = Exited p ->
     text_mode h (stdout p) = None ->
     fst (get_account_number h t) = Raise UnicodeDecodeError) /\
  spawns (snd (get_account_number h t)) = [account_argv].
Proof.
  rewrite get_account_number_spec. cbv zeta.
  destruct (spawn h t account_argv) as [|p].
  { split; [|split; [|split; [|split]]]; cbn [fst snd spawns].
    - split; [discriminate | intros [p [Hp _]]; discriminate].
    - split; [intros [H | []]; discriminate | discriminate].
    - discriminate.
    - intros p Hp; discriminate.
    - reflexivity. }
  destruct (text_mode h (stdout p)) as [output|] eqn:Ht.
  2:{ split; [|split; [|split; [|split]]]; cbn [fst snd spawns].
      - split; [discriminate | intros [q [[= <-] [Hq _]]]; congruence].
      - split; [intros [H | []]; discriminate | discriminate].
      - discriminate.
      - reflexivity.
      - reflexivity. }
  destruct (Z.eqb_spec (returncode p) 0) as [Hz|Hz];
    (split; [|split; [|split; [|split]]]); cbn [fst snd spawns].
  - split; [intros H; now apply account_number_of_never_bool in H|].
    intros [q [[= <-] [_ Hq]]]. congruence.
  - split; [intros [H | []]; discriminate|].
    intros H. now apply account_number_of_never_bool in H.
  - apply account_number_of_never_bool.
  - intros q [= <-]. congruence.
  - reflexivity.
  - split; [|reflexivity]. intros _. exists p. repeat split; congruence.
  - split; [reflexivity|]. intros _. right. now left.
  - discriminate.
  - intros q [= <-]. congruence.
  - reflexivity.
Qed.

Lemma get_account_number_failed_command_witness :
  fst (get_account_number (always 1 "Account: 1234567890123") [])
  = Ok (PyBool false).
Proof.
  apply (proj2 (proj1 (get_account_number_failed_command
                         (always 1 "Account: 1234567890123") []))).
  eexists. split; [reflexivity | split; discriminate].
Defined.

End Operations.
